(** * user-service: a shallow embedding of [server.js]

    The program is six lines of JavaScript on top of the Express web
    framework:

<<
      const express = require('express');
      const app = express();
      const port = process.env.PORT || 3000;
      app.get('/health', (req,res)=>res.json({status:'ok', svc:'user'}));
      app.get('/users', (req,res)=>res.json([{id:1,name:'Alice'}]));
      app.listen(port,()=>console.log(`user-service listening ${port}`));
>>

    The development has three layers.

    - [Js]: the JavaScript values the program manipulates, truthiness and
      [||], and [JSON.stringify] on them.
    - [Express]: the part of the framework the six lines call into: the
      application's layer stack, route registration with [app.get], the
      router's dispatch loop, [res.json] / [res.send], the automatic
      [OPTIONS] answer and the final not-found handler.  The framework is a
      dependency of the program, so this layer follows the behaviour of the
      Express 4 line ([lib/router/index.js], [lib/router/route.js],
      [lib/response.js], [lib/request.js] and the [fresh] package).
    - [Server]: [server.js] itself, line by line. *)

From stdpp Require Import gmap strings list pretty.
From Stdlib Require Import ZArith Ascii String.

Open Scope string_scope.

(** ** JavaScript values *)

#[local] Set Warnings "-register-all".

Module Js.

(** One character holding the double quote (code 34) and the
    backslash (code 92). *)
Definition dquote : ascii := ascii_of_nat 34.
Definition backslash : ascii := ascii_of_nat 92.

(** [q s] is [s] between double quotes; used to write JSON texts down. *)
Definition q (s : string) : string :=
  String dquote (s ++ String dquote EmptyString).

(** The values that occur in the program: the literals handed to
    [res.json], the strings of [process.env], [undefined] for a missing
    property and the number literal [3000].  Numbers are the integers
    (every number literal of the program is one).  An object keeps its
    properties in insertion order, which is the order [JSON.stringify]
    walks them in. *)
Inductive value :=
| Undefined
| Null
| Bool (b : bool)
| Number (n : Z)
| Str (s : string)
| Array (items : list value)
| Object (props : list (string * value)).

(** ToBoolean. *)
Definition truthy (v : value) : bool :=
  match v with
  | Undefined | Null => false
  | Bool b => b
  | Number n => negb (n =? 0)%Z
  | Str s => negb (String.eqb s "")
  | Array _ | Object _ => true
  end.

(** [a || b]: [a] when it is truthy, else [b]. *)
Definition or (a b : value) : value := if truthy a then a else b.

(** ASCII lower-casing, the part of [String.prototype.toLowerCase] that
    applies to method names and to paths matched with the [i] flag. *)
Definition lower_ascii (c : ascii) : ascii :=
  let n := nat_of_ascii c in
  if (65 <=? n)%nat && (n <=? 90)%nat then ascii_of_nat (n + 32) else c.

Fixpoint toLowerCase (s : string) : string :=
  match s with
  | EmptyString => EmptyString
  | String c s' => String (lower_ascii c) (toLowerCase s')
  end.

Fixpoint toUpperCase (s : string) : string :=
  match s with
  | EmptyString => EmptyString
  | String c s' =>
      let n := nat_of_ascii c in
      String (if (97 <=? n)%nat && (n <=? 122)%nat
              then ascii_of_nat (n - 32) else c)
             (toUpperCase s')
  end.

(** [Array.prototype.join]. *)
Fixpoint join (sep : string) (l : list string) : string :=
  match l with
  | [] => ""
  | [x] => x
  | x :: rest => x ++ sep ++ join sep rest
  end.

(** *** JSON.stringify *)

Definition hex_digit (n : nat) : ascii :=
  if (n <? 10)%nat then ascii_of_nat (48 + n) else ascii_of_nat (87 + n).

(** QuoteJSONString, one character at a time. *)
Definition quote_char (c : ascii) : string :=
  let n := nat_of_ascii c in
  if (n =? 34)%nat then String backslash (String dquote "")
  else if (n =? 92)%nat then String backslash (String backslash "")
  else if (n =? 8)%nat then String backslash "b"
  else if (n =? 9)%nat then String backslash "t"
  else if (n =? 10)%nat then String backslash "n"
  else if (n =? 12)%nat then String backslash "f"
  else if (n =? 13)%nat then String backslash "r"
  else if (n <? 32)%nat then
    String backslash
      ("u00" ++ String (hex_digit (n / 16)) (String (hex_digit (n mod 16)) ""))
  else String c "".

Fixpoint quote_chars (s : string) : string :=
  match s with
  | EmptyString => EmptyString
  | String c s' => quote_char c ++ quote_chars s'
  end.

Definition quote (s : string) : string :=
  String dquote (quote_chars s ++ String dquote EmptyString).

(** [stringify v] is [JSON.stringify(v)] with no replacer and no
    indentation; [None] is the [undefined] that [JSON.stringify] returns
    for [undefined].  Inside an array [undefined] is written [null];
    a property whose value is [undefined] is left out. *)
Fixpoint stringify (v : value) : option string :=
  match v with
  | Undefined => None
  | Null => Some "null"
  | Bool true => Some "true"
  | Bool false => Some "false"
  | Number n => Some (pretty n)
  | Str s => Some (quote s)
  | Array items =>
      Some ("[" ++ join "," (List.map (fun x => default "null" (stringify x)) items)
                ++ "]")
  | Object props =>
      let member (kv : string * value) : list string :=
        match stringify (snd kv) with
        | Some t => [quote (fst kv) ++ ":" ++ t]
        | None => []
        end in
      Some ("{" ++ join "," (List.concat (List.map member props)) ++ "}")
  end.

(** The string a template literal interpolates, for the values a port
    can be. *)
Definition toString (v : value) : string :=
  match v with
  | Str s => s
  | Number n => pretty n
  | Undefined => "undefined"
  | Null => "null"
  | Bool true => "true"
  | Bool false => "false"
  | Array _ | Object _ => "[object Object]"
  end.

End Js.

(** ** The framework *)

Module Express.

(** The request as the router sees it: [req.method], the pathname and the
    query part of the request target (what [parseurl(req)] returns for
    [req.url]) and [req.headers], whose field names the HTTP layer has
    already put in lower case.  Header values are byte strings. *)
Record Request := {
  method : string;
  path : string;
  query : option string;
  headers : gmap string string
}.

(** What is written back.  The not-found document of the final handler is
    kept symbolic: the text depends on the method and the path only. *)
Inductive Body :=
| NoBody
| Text (chunk : string)
| NotFoundPage (meth target : string).

Record Response := {
  statusCode : Z;
  resHeaders : gmap string string;
  body : Body
}.

(** A [ServerResponse] as the HTTP layer creates it. *)
Definition createResponse : Response :=
  {| statusCode := 200; resHeaders := ∅; body := NoBody |}.

Definition setHeader (field val : string) (res : Response) : Response :=
  {| statusCode := statusCode res;
     resHeaders := <[Js.toLowerCase field := val]> (resHeaders res);
     body := body res |}.

Definition removeHeader (field : string) (res : Response) : Response :=
  {| statusCode := statusCode res;
     resHeaders := delete (Js.toLowerCase field) (resHeaders res);
     body := body res |}.

Definition getHeader (field : string) (res : Response) : option string :=
  resHeaders res !! Js.toLowerCase field.

Definition status (code : Z) (res : Response) : Response :=
  {| statusCode := code; resHeaders := resHeaders res; body := body res |}.

Definition end_ (b : Body) (res : Response) : Response :=
  {| statusCode := statusCode res; resHeaders := resHeaders res; body := b |}.

(** *** The [fresh] package *)

(** A header that is missing or empty is falsy. *)
Definition present (h : option string) : bool :=
  match h with
  | Some s => negb (String.eqb s "")
  | None => false
  end.

(** [\s] on byte strings. *)
Definition is_space (c : ascii) : bool :=
  let n := nat_of_ascii c in
  ((9 <=? n)%nat && (n <=? 13)%nat) || (n =? 32)%nat || (n =? 160)%nat.

Fixpoint split (sep : ascii) (s : string) : list string :=
  match s with
  | EmptyString => [EmptyString]
  | String c s' =>
      if Ascii.eqb c sep then EmptyString :: split sep s'
      else match split sep s' with
           | piece :: rest => String c piece :: rest
           | [] => [String c EmptyString]
           end
  end.

Fixpoint drop_while (f : ascii -> bool) (s : string) : string :=
  match s with
  | EmptyString => EmptyString
  | String c s' => if f c then drop_while f s' else s
  end.

Fixpoint all_chars (f : ascii -> bool) (s : string) : bool :=
  match s with
  | EmptyString => true
  | String c s' => f c && all_chars f s'
  end.

(** Removes the characters satisfying [f] at the end of [s]. *)
Fixpoint drop_end (f : ascii -> bool) (s : string) : string :=
  match s with
  | EmptyString => EmptyString
  | String c s' => if all_chars f s then EmptyString else String c (drop_end f s')
  end.

(** [/(?:^|,)\s*?no-cache\s*?(?:,|$)/.test(cacheControl)]: one of the
    comma-separated pieces is [no-cache] with white space around it. *)
Definition no_cache (cacheControl : string) : bool :=
  existsb (fun piece =>
             String.eqb (drop_end is_space (drop_while is_space piece)) "no-cache")
          (split "," cacheControl).

(** [parseTokenList]: the comma-separated pieces without the blanks
    (code 32) at their ends. *)
Definition parseTokenList (str : string) : list string :=
  let blank c := Ascii.eqb c " " in
  List.map (fun piece => drop_end blank (drop_while blank piece)) (split "," str).

(** [fresh(reqHeaders, {etag, 'last-modified'})].  Nothing in the
    application sets [Last-Modified], so the response side of the
    [If-Modified-Since] comparison is always missing and such a request
    is stale. *)
Definition fresh (reqHeaders : gmap string string) (etag : option string) : bool :=
  let modifiedSince := reqHeaders !! "if-modified-since" in
  let noneMatch := reqHeaders !! "if-none-match" in
  if negb (present modifiedSince) && negb (present noneMatch) then false
  else if match reqHeaders !! "cache-control" with
          | Some cc => present (Some cc) && no_cache cc
          | None => false
          end then false
  else if present noneMatch
          && negb (String.eqb (default "" noneMatch) "*")
          && negb (match etag with
                   | Some e =>
                       present etag &&
                       existsb (fun m => String.eqb m e
                                         || String.eqb m ("W/" ++ e)
                                         || String.eqb ("W/" ++ m) e)
                               (parseTokenList (default "" noneMatch))
                   | None => false
                   end) then false
  else if present modifiedSince then false
  else true.

(** [req.fresh]. *)
Definition req_fresh (req : Request) (res : Response) : bool :=
  if negb (String.eqb (method req) "GET") && negb (String.eqb (method req) "HEAD")
  then false
  else if ((200 <=? statusCode res)%Z && (statusCode res <? 300)%Z)
          || (statusCode res =? 304)%Z
       then fresh (headers req) (getHeader "ETag" res)
       else false.

(** *** Responses: [res.send] and [res.json] *)

Section Application.

(** The store stands for whatever state of the process outlives a request;
    handlers receive it and hand it back.  [wetag] is the application
    setting ['etag fn'], which [express()] initialises to the weak ETag
    generator of the [etag] package (a digest of the body). *)
Context {Store : Type}.
Variable wetag : string -> string.

Definition html_type : string := "text/html; charset=utf-8".
Definition json_type : string := "application/json; charset=utf-8".

(** [res.send(chunk)] for a string [chunk]: default the content type,
    set [Content-Length] and [ETag], turn a fresh conditional request into
    a 304, strip the content headers and the body of a 204 or 304, empty
    a 205, and write no body for [HEAD]. *)
Definition send (req : Request) (chunk : string) (res : Response) : Response :=
  let res := if present (getHeader "Content-Type" res) then res
             else setHeader "Content-Type" html_type res in
  let generateETag := negb (present (getHeader "ETag" res)) in
  let res := setHeader "Content-Length" (pretty (String.length chunk)) res in
  let res := if generateETag then setHeader "ETag" (wetag chunk) res else res in
  let res := if req_fresh req res then status 304 res else res in
  let stripped := (statusCode res =? 204)%Z || (statusCode res =? 304)%Z in
  let res := if stripped
             then removeHeader "Transfer-Encoding"
                    (removeHeader "Content-Length" (removeHeader "Content-Type" res))
             else res in
  let chunk := if stripped then "" else chunk in
  let reset := (statusCode res =? 205)%Z in
  let res := if reset
             then removeHeader "Transfer-Encoding" (setHeader "Content-Length" "0" res)
             else res in
  let chunk := if reset then "" else chunk in
  if String.eqb (method req) "HEAD" then end_ NoBody res else end_ (Text chunk) res.

(** [res.json(val)] with the settings ['json replacer'], ['json spaces']
    and ['json escape'] unset, as [express()] leaves them.  The content
    type is [application/json], to which [res.set] adds the charset. *)
Definition json (req : Request) (val : Js.value) (res : Response) : Response :=
  let res' := if present (getHeader "Content-Type" res) then res
              else setHeader "Content-Type" json_type res in
  match Js.stringify val with
  | Some text => send req text res'
  | None => end_ NoBody res'
  end.

(** *** Layers and routes *)

(** A handler either ends the response or calls [next()]. *)
Inductive outcome := Ended | CallNext.

Definition Handler : Type := Request -> Response -> Store -> outcome * Response * Store.

(** A [Route]: its path, the verbs it has handlers for ([route.methods])
    and its own stack of handlers, each tagged with its verb. *)
Record Route := {
  route_path : string;
  methods : list string;
  route_stack : list (string * Handler)
}.

(** A layer of the router: a middleware mounted at [/], or a route. *)
Inductive Layer :=
| Middleware (fn : Handler)
| Routed (route : Route).

Record App := { stack : list Layer }.

(** The two layers [lazyrouter] installs before the first route: the query
    parser, which only decorates the request, and [expressInit], which sets
    [X-Powered-By]. *)
Definition query_mw : Handler := fun req res s => (CallNext, res, s).

Definition expressInit : Handler :=
  fun req res s => (CallNext, setHeader "X-Powered-By" "Express" res, s).

Definition express : App :=
  {| stack := [Middleware query_mw; Middleware expressInit] |}.

(** [app.get(path, handler)]: a new route with the single verb [get],
    appended to the router's stack. *)
Definition app_get (p : string) (h : Handler) (app : App) : App :=
  {| stack := stack app ++
       [Routed {| route_path := p; methods := ["get"]; route_stack := [("get", h)] |}] |}.

(** The regular expression of a literal route path under the default
    settings (case-insensitive, non-strict, anchored at both ends):
    [/^\/health\/?$/i] for [/health].  A trailing slash of the pattern is
    itself optional. *)
Definition pattern_base (pattern : string) : string :=
  let l := String.length pattern in
  if String.eqb (substring (l - 1) 1 pattern) "/"
  then substring 0 (l - 1) pattern else pattern.

Definition matchLayer (pattern p : string) : bool :=
  let base := Js.toLowerCase (pattern_base pattern) in
  String.eqb (Js.toLowerCase p) base || String.eqb (Js.toLowerCase p) (base ++ "/").

Definition has_verb (r : Route) (name : string) : bool :=
  existsb (String.eqb name) (methods r).

(** [Route.prototype._handles_method]: [HEAD] falls back to [GET]. *)
Definition handles_method (r : Route) (meth : string) : bool :=
  let name := Js.toLowerCase meth in
  let name := if String.eqb name "head" && negb (has_verb r "head")
              then "get" else name in
  has_verb r name.

(** [Route.prototype._options]: the verbs in upper case, with the
    automatic [HEAD]. *)
Definition route_options (r : Route) : list string :=
  List.map Js.toUpperCase
    (methods r ++ if has_verb r "get" && negb (has_verb r "head") then ["head"] else []).

Fixpoint appendMethods (l addition : list string) : list string :=
  match addition with
  | [] => l
  | m :: rest =>
      appendMethods (if existsb (String.eqb m) l then l else l ++ [m]) rest
  end.

(** [Route.prototype.dispatch]: run the handlers registered for the verb,
    in order, until one ends the response. *)
Fixpoint dispatch_stack (handlers : list (string * Handler)) (verb : string)
    (req : Request) (res : Response) (s : Store) : outcome * Response * Store :=
  match handlers with
  | [] => (CallNext, res, s)
  | (m, h) :: rest =>
      if negb (String.eqb m verb) then dispatch_stack rest verb req res s
      else match h req res s with
           | (Ended, res', s') => (Ended, res', s')
           | (CallNext, res', s') => dispatch_stack rest verb req res' s'
           end
  end.

Definition dispatch (r : Route) (req : Request) (res : Response) (s : Store)
    : outcome * Response * Store :=
  let verb := Js.toLowerCase (method req) in
  let verb := if String.eqb verb "head" && negb (has_verb r "head")
              then "get" else verb in
  dispatch_stack (route_stack r) verb req res s.

(** The final handler for a request nothing answered: 404 with the
    framework's error document ([HEAD] gets no body). *)
Definition finalhandler (req : Request) (res : Response) : Response :=
  let res := status 404 res in
  let res := setHeader "Content-Security-Policy" "default-src 'none'" res in
  let res := setHeader "X-Content-Type-Options" "nosniff" res in
  let res := setHeader "Content-Type" html_type res in
  if String.eqb (method req) "HEAD" then end_ NoBody res
  else end_ (NotFoundPage (method req) (path req)) res.

(** [sendOptionsResponse]. *)
Definition sendOptionsResponse (req : Request) (options : list string)
    (res : Response) : Response :=
  let allow := Js.join "," options in
  send req allow (setHeader "Allow" allow res).

(** The end of the router's stack: an [OPTIONS] request for which some
    matching route collected verbs is answered with them, anything else
    goes to the final handler. *)
Definition done (options : list string) (req : Request) (res : Response) : Response :=
  if String.eqb (method req) "OPTIONS" && negb (Nat.eqb (List.length options) 0)
  then sendOptionsResponse req options res
  else finalhandler req res.

(** [Router.prototype.handle]: walk the stack; a middleware always runs,
    a route runs when its path matches and it handles the method (a [HEAD]
    request is dispatched to a matching route in any case). *)
Fixpoint next (layers : list Layer) (options : list string)
    (req : Request) (res : Response) (s : Store) : Response * Store :=
  match layers with
  | [] => (done options req res, s)
  | Middleware fn :: rest =>
      match fn req res s with
      | (Ended, res', s') => (res', s')
      | (CallNext, res', s') => next rest options req res' s'
      end
  | Routed r :: rest =>
      if negb (matchLayer (route_path r) (path req)) then next rest options req res s
      else
        let has_method := handles_method r (method req) in
        let options :=
          if negb has_method && String.eqb (method req) "OPTIONS"
          then appendMethods options (route_options r) else options in
        if negb has_method && negb (String.eqb (method req) "HEAD")
        then next rest options req res s
        else match dispatch r req res s with
             | (Ended, res', s') => (res', s')
             | (CallNext, res', s') => next rest options req res' s'
             end
  end.

(** [app(req, res)]: the request listener handed to [http.createServer]. *)
Definition handle (app : App) (req : Request) (s : Store) : Response * Store :=
  next (stack app) [] req createResponse s.

End Application.

End Express.

(** ** The program *)

Module Server.
Import Express.

Section Program.

Context {Store : Type}.
Variable wetag : string -> string.

(** [{status:'ok', svc:'user'}] *)
Definition health_payload : Js.value :=
  Js.Object [("status", Js.Str "ok"); ("svc", Js.Str "user")].

(** [[{id:1,name:'Alice'}]] *)
Definition users_payload : Js.value :=
  Js.Array [Js.Object [("id", Js.Number 1); ("name", Js.Str "Alice")]].

(** [(req,res)=>res.json({status:'ok', svc:'user'})] *)
Definition health_handler : Handler (Store := Store) :=
  fun req res s => (Ended, json wetag req health_payload res, s).

(** [(req,res)=>res.json([{id:1,name:'Alice'}])] *)
Definition users_handler : Handler (Store := Store) :=
  fun req res s => (Ended, json wetag req users_payload res, s).

(** Lines 2, 4 and 5: the application with its two routes, in the order
    they are registered. *)
Definition app : App (Store := Store) :=
  app_get "/users" users_handler (app_get "/health" health_handler express).

(** The response the running service gives to one request. *)
Definition respond (req : Request) (s : Store) : Response * Store :=
  handle wetag app req s.

(** Requests served one after the other, each starting from the store the
    previous one left. *)
Fixpoint serve (reqs : list Request) (s : Store) : list Response * Store :=
  match reqs with
  | [] => ([], s)
  | req :: rest =>
      let '(res, s') := respond req s in
      let '(out, s'') := serve rest s' in
      (res :: out, s'')
  end.

(** Requests in flight at the same time.  A handler of this program runs
    to completion within one turn of the event loop ([res.json] is
    synchronous), so a concurrent execution is a choice, turn after turn,
    of which pending request is answered next.  (The final handler of a
    request no route answered runs in a later turn of its own; it reads
    that request only, so its turn is merged with the routing turn.)
    [log] records the answers in the order they were produced. *)
Inductive run : Store -> list Request -> list (Request * Response) -> Store -> Prop :=
| run_idle s : run s [] [] s
| run_turn s before req after res s' log s'' :
    respond req s = (res, s') ->
    run s' (before ++ after) log s'' ->
    run s (before ++ req :: after) ((req, res) :: log) s''.

(** *** Reading a response *)

(** The response object as it reaches a route handler: [expressInit] has
    set [X-Powered-By] on it. *)
Definition powered : Response := setHeader "X-Powered-By" "Express" createResponse.

(** Whether the path of the request matches a registered route. *)
Definition on_health (req : Request) : bool := matchLayer "/health" (path req).
Definition on_users (req : Request) : bool := matchLayer "/users" (path req).

(** The method names a route registered with [app.get] answers: [GET] and,
    through the fallback, [HEAD]. *)
Definition get_like (meth : string) : bool :=
  String.eqb (Js.toLowerCase meth) "get" || String.eqb (Js.toLowerCase meth) "head".

(** The two JSON texts of the interface table, character by character. *)
Definition health_json : string :=
  "{" ++ Js.q "status" ++ ":" ++ Js.q "ok" ++ "," ++ Js.q "svc" ++ ":" ++ Js.q "user" ++ "}".

Definition users_json : string :=
  "[{" ++ Js.q "id" ++ ":1," ++ Js.q "name" ++ ":" ++ Js.q "Alice" ++ "}]".

(** [req.fresh] at the point where [res.send] consults it for the body
    [text]: the method is [GET] or [HEAD] and the conditional headers
    validate against the ETag of [text]. *)
Definition not_modified (text : string) (req : Request) : bool :=
  (String.eqb (method req) "GET" || String.eqb (method req) "HEAD")
  && fresh (headers req) (Some (wetag text)).

(** The same for the body of the route the request is on. *)
Definition is_fresh (req : Request) : bool :=
  if on_health req then not_modified health_json req
  else if on_users req then not_modified users_json req
  else false.

(** The response [res.json] builds for the body [text], as a function of
    the two things it reads off the request: whether the method is [HEAD]
    and whether the request is fresh. *)
Definition json_response (text : string) (head fresh304 : bool) : Response :=
  let full :=
    setHeader "ETag" (wetag text)
      (setHeader "Content-Length" (pretty (String.length text))
         (setHeader "Content-Type" json_type powered)) in
  let res :=
    if fresh304
    then removeHeader "Transfer-Encoding"
           (removeHeader "Content-Length" (removeHeader "Content-Type" (status 304 full)))
    else full in
  end_ (if head then NoBody else Text (if fresh304 then "" else text)) res.

End Program.

(** The answer a request gets from an instance that has served nothing
    and keeps no store at all. *)
Definition answer (wetag : string -> string) (req : Request) : Response :=
  fst (respond (Store := unit) wetag req tt).

(** Line 3: [process.env.PORT || 3000].  A property of [process.env] is a
    string, or [undefined] when the variable is not set. *)
Definition env_get (env : gmap string string) (name : string) : Js.value :=
  match env !! name with
  | Some v => Js.Str v
  | None => Js.Undefined
  end.

Definition port (env : gmap string string) : Js.value :=
  Js.or (env_get env "PORT") (Js.Number 3000).

(** Line 6: what the program asks of the platform at startup, namely to
    listen with [port] as the argument of [app.listen], and the line the
    callback logs once the server is listening. *)
Record Startup := {
  listen_arg : Js.value;
  listening_log : string
}.

Definition main (env : gmap string string) : Startup :=
  {| listen_arg := port env;
     listening_log := "user-service listening " ++ Js.toString (port env) |}.

End Server.

(** ** Sample inputs *)

Module Sample.
Import Express.

(** A stand-in for the ETag generator: a weak validator made of the
    length of the body. *)
Definition etag (chunk : string) : string :=
  "W/" ++ Js.q (pretty (String.length chunk)).

Definition request (meth p : string) (q : option string)
    (h : gmap string string) : Request :=
  {| method := meth; path := p; query := q; headers := h |}.

(** A request without header fields, and one that revalidates with
    [If-None-Match: *]. *)
Definition plain (meth p : string) : Request := request meth p None ∅.

Definition revalidating (meth p : string) : Request :=
  request meth p None {["if-none-match" := "*"]}.

End Sample.

(** * Properties *)

Import Express Server.

(** ** The router on the two routes *)

Section Routing.

Context {Store : Type}.
Variable wetag : string -> string.

Implicit Types (req : Request) (res : Response) (s : Store).

Lemma matchLayer_literal pattern p :
  matchLayer pattern p =
  String.eqb (Js.toLowerCase p) (Js.toLowerCase (pattern_base pattern))
  || String.eqb (Js.toLowerCase p) (Js.toLowerCase (pattern_base pattern) ++ "/").
Proof. reflexivity. Qed.

Lemma on_users_not_health req : on_users req = true -> on_health req = false.
Proof.
  unfold on_users, on_health. rewrite !matchLayer_literal.
  intros H. apply orb_true_iff in H as [H | H];
    apply String.eqb_eq in H; rewrite H; reflexivity.
Qed.

Lemma handles_get_route p (h : Handler (Store := Store)) meth :
  handles_method {| route_path := p; methods := ["get"]; route_stack := [("get", h)] |} meth
  = get_like meth.
Proof.
  unfold handles_method, get_like, has_verb. cbn [methods existsb].
  destruct (String.eqb (Js.toLowerCase meth) "head") eqn:Hhead.
  - apply String.eqb_eq in Hhead. rewrite Hhead. reflexivity.
  - cbn. rewrite !orb_false_r. reflexivity.
Qed.

Lemma dispatch_get_route p (h : Handler (Store := Store)) req res s :
  get_like (method req) = true ->
  dispatch {| route_path := p; methods := ["get"]; route_stack := [("get", h)] |} req res s
  = match h req res s with
    | (Ended, res', s') => (Ended, res', s')
    | (CallNext, res', s') => (CallNext, res', s')
    end.
Proof.
  unfold get_like, dispatch, has_verb. cbn [methods existsb route_stack].
  intros H. apply orb_true_iff in H as [H | H];
    apply String.eqb_eq in H; rewrite H; cbn; destruct (h req res s) as [[[] ?] ?]; reflexivity.
Qed.

End Routing.

Section Responses.

Context {Store : Type}.
Variable wetag : string -> string.

Implicit Types (req : Request) (res : Response) (s : Store).

Lemma respond_unfold req s :
  Server.respond wetag req s =
  next wetag
    [Routed {| route_path := "/health"; methods := ["get"];
               route_stack := [("get", Server.health_handler wetag)] |};
     Routed {| route_path := "/users"; methods := ["get"];
               route_stack := [("get", Server.users_handler wetag)] |}]
    [] req powered s.
Proof. reflexivity. Qed.

Lemma respond_health req s :
  on_health req = true -> get_like (method req) = true ->
  Server.respond wetag req s = (json wetag req Server.health_payload powered, s).
Proof.
  intros Hp Hm. rewrite respond_unfold. cbn [next route_path].
  fold (on_health req). rewrite Hp. cbn [negb].
  rewrite handles_get_route, Hm. cbn [negb andb].
  rewrite dispatch_get_route by exact Hm. reflexivity.
Qed.

Lemma respond_users req s :
  on_users req = true -> get_like (method req) = true ->
  Server.respond wetag req s = (json wetag req Server.users_payload powered, s).
Proof.
  intros Hp Hm. rewrite respond_unfold. cbn [next route_path].
  fold (on_health req) (on_users req).
  rewrite (on_users_not_health req Hp), Hp. cbn [negb].
  rewrite handles_get_route, Hm. cbn [negb andb].
  rewrite dispatch_get_route by exact Hm. reflexivity.
Qed.

Lemma respond_unmatched req s :
  on_health req = false -> on_users req = false ->
  Server.respond wetag req s = (finalhandler req powered, s).
Proof.
  intros Hh Hu. rewrite respond_unfold. cbn [next route_path].
  fold (on_health req) (on_users req). rewrite Hh, Hu. cbn [negb].
  unfold done. cbn. rewrite andb_false_r. reflexivity.
Qed.

Lemma respond_unhandled req s :
  get_like (method req) = false -> method req <> "OPTIONS" ->
  Server.respond wetag req s = (finalhandler req powered, s).
Proof.
  intros Hm Ho. apply String.eqb_neq in Ho.
  assert (Hhead : String.eqb (method req) "HEAD" = false).
  { apply String.eqb_neq. intros E. rewrite E in Hm. discriminate. }
  rewrite respond_unfold. cbn [next route_path].
  rewrite !handles_get_route, Hm, Ho, Hhead. cbn [negb andb].
  destruct (matchLayer "/health" (path req)), (matchLayer "/users" (path req));
    cbn [negb]; unfold done; rewrite Ho; reflexivity.
Qed.

Lemma respond_options req s :
  method req = "OPTIONS" -> on_health req || on_users req = true ->
  Server.respond wetag req s =
  (sendOptionsResponse wetag req ["GET"; "HEAD"] powered, s).
Proof.
  intros Hm Hp. rewrite respond_unfold. cbn [next route_path].
  rewrite !handles_get_route, Hm. fold (on_health req) (on_users req).
  destruct (on_users req) eqn:Hu.
  - rewrite (on_users_not_health req Hu). unfold done. rewrite Hm. reflexivity.
  - rewrite orb_false_r in Hp. rewrite Hp. unfold done. rewrite Hm. reflexivity.
Qed.

End Responses.

(** ** [res.json] on the response a handler receives *)

Section Json.

Variable wetag : string -> string.

Implicit Types (req : Request) (res : Response).

Lemma getHeader_setHeader field val res :
  getHeader field (setHeader field val res) = Some val.
Proof. apply lookup_insert_eq. Qed.

Lemma getHeader_setHeader_ne field field' val res :
  Js.toLowerCase field <> Js.toLowerCase field' ->
  getHeader field' (setHeader field val res) = getHeader field' res.
Proof. intros H. unfold getHeader, setHeader. cbn [resHeaders]. by rewrite lookup_insert_ne. Qed.

Lemma json_powered req val text :
  Js.stringify val = Some text ->
  json wetag req val powered
  = json_response wetag text (String.eqb (method req) "HEAD") (not_modified wetag text req).
Proof.
  intros Hs. unfold json. rewrite Hs.
  change (present (getHeader "Content-Type" powered)) with false. cbn iota.
  unfold send.
  rewrite getHeader_setHeader. cbn [present json_type String.eqb Ascii.eqb Bool.eqb negb].
  rewrite getHeader_setHeader_ne by (cbn; discriminate).
  change (present (getHeader "ETag" powered)) with false. cbn [negb].
  set (full := setHeader "ETag" _ _).
  assert (Hf : req_fresh req full = not_modified wetag text req).
  { unfold req_fresh, not_modified. subst full. rewrite getHeader_setHeader.
    change (statusCode _) with 200%Z. cbn [Z.leb Z.ltb Z.eqb Z.compare Pos.compare Pos.compare_cont orb andb].
    destruct (String.eqb (method req) "GET"), (String.eqb (method req) "HEAD"); reflexivity. }
  rewrite Hf. unfold json_response. fold full.
  destruct (not_modified wetag text req), (String.eqb (method req) "HEAD"); reflexivity.
Qed.

End Json.

(** ** The two payloads and their responses *)

Lemma stringify_health : Js.stringify health_payload = Some health_json.
Proof. vm_compute. reflexivity. Qed.

Lemma stringify_users : Js.stringify users_payload = Some users_json.
Proof. vm_compute. reflexivity. Qed.

(** The texts are the ones of the interface table: their character codes. *)
Lemma health_json_codes :
  List.map nat_of_ascii (list_ascii_of_string health_json)
  = [123; 34; 115; 116; 97; 116; 117; 115; 34; 58; 34; 111; 107; 34; 44;
     34; 115; 118; 99; 34; 58; 34; 117; 115; 101; 114; 34; 125]%nat.
Proof. vm_compute. reflexivity. Qed.

Lemma users_json_codes :
  List.map nat_of_ascii (list_ascii_of_string users_json)
  = [91; 123; 34; 105; 100; 34; 58; 49; 44; 34; 110; 97; 109; 101; 34; 58;
     34; 65; 108; 105; 99; 101; 34; 125; 93]%nat.
Proof. vm_compute. reflexivity. Qed.

Section Answers.

Context {Store : Type}.
Variable wetag : string -> string.

Implicit Types (req : Request) (s : Store).

Lemma json_response_ok text head :
  statusCode (json_response wetag text head false) = 200%Z
  /\ body (json_response wetag text head false) = (if head then NoBody else Text text)
  /\ getHeader "Content-Type" (json_response wetag text head false) = Some json_type.
Proof.
  split; [reflexivity | split; [reflexivity |]].
  unfold json_response. cbn zeta iota.
  unfold getHeader, end_. cbn [resHeaders].
  change (resHeaders (setHeader "ETag" (wetag text)
            (setHeader "Content-Length" (pretty (String.length text))
               (setHeader "Content-Type" json_type powered))))
    with (<["etag" := wetag text]>
            (<["content-length" := pretty (String.length text)]>
               (<["content-type" := json_type]> (resHeaders powered)))).
  change (Js.toLowerCase "Content-Type") with "content-type".
  rewrite lookup_insert_ne by discriminate.
  rewrite lookup_insert_ne by discriminate.
  apply lookup_insert_eq.
Qed.

Lemma json_response_304 text head :
  statusCode (json_response wetag text head true) = 304%Z
  /\ body (json_response wetag text head true) = (if head then NoBody else Text "").
Proof. split; reflexivity. Qed.

(** A request on a route, with a method the route answers, gets the
    [res.json] response of that route. *)
Lemma respond_on_health req s :
  on_health req = true -> get_like (method req) = true ->
  Server.respond wetag req s =
  (json_response wetag health_json (String.eqb (method req) "HEAD") (is_fresh wetag req), s).
Proof.
  intros Hp Hm. rewrite respond_health by assumption.
  rewrite (json_powered wetag req _ _ stringify_health).
  unfold is_fresh. rewrite Hp. reflexivity.
Qed.

Lemma respond_on_users req s :
  on_users req = true -> get_like (method req) = true ->
  Server.respond wetag req s =
  (json_response wetag users_json (String.eqb (method req) "HEAD") (is_fresh wetag req), s).
Proof.
  intros Hp Hm. rewrite respond_users by assumption.
  rewrite (json_powered wetag req _ _ stringify_users).
  unfold is_fresh. rewrite Hp, (on_users_not_health req Hp). reflexivity.
Qed.

(** A fresh conditional GET on either route is answered 304 with an empty
    body, by design of [res.send]. *)
Lemma respond_revalidation req s :
  method req = "GET" -> on_health req || on_users req = true ->
  is_fresh wetag req = true ->
  statusCode (fst (Server.respond wetag req s)) = 304%Z
  /\ body (fst (Server.respond wetag req s)) = Text "".
Proof.
  intros Hm Hp Hf. destruct (on_health req) eqn:Hh.
  - rewrite respond_on_health, Hm, Hf by (try assumption; rewrite Hm; reflexivity).
    split; reflexivity.
  - cbn [orb] in Hp.
    rewrite respond_on_users, Hm, Hf by (try assumption; rewrite Hm; reflexivity).
    split; reflexivity.
Qed.

End Answers.

(** A request that carries neither [If-None-Match] nor [If-Modified-Since]
    is never fresh. *)
Lemma unconditional_not_fresh wetag (req : Request) :
  headers req !! "if-none-match" = None ->
  headers req !! "if-modified-since" = None ->
  is_fresh wetag req = false.
Proof.
  intros Hn Hm. unfold is_fresh, not_modified, fresh. rewrite Hn, Hm. cbn.
  rewrite !andb_false_r. destruct (on_health req), (on_users req); reflexivity.
Qed.

(** ** No state: the answer to a request is a function of the request *)

Section Stateless.

Context {Store : Type}.
Variable wetag : string -> string.

Lemma respond_answer (req : Request) (s : Store) :
  Server.respond wetag req s = (answer wetag req, s).
Proof.
  unfold answer.
  destruct (get_like (method req)) eqn:Hm.
  - destruct (on_health req) eqn:Hh.
    + rewrite !respond_on_health by assumption. reflexivity.
    + destruct (on_users req) eqn:Hu.
      * rewrite !respond_on_users by assumption. reflexivity.
      * rewrite !respond_unmatched by assumption. reflexivity.
  - destruct (String.eqb (method req) "OPTIONS") eqn:Ho.
    + apply String.eqb_eq in Ho.
      destruct (on_health req || on_users req) eqn:Hp.
      * rewrite !respond_options by assumption. reflexivity.
      * apply orb_false_iff in Hp as [Hh Hu].
        rewrite !respond_unmatched by assumption. reflexivity.
    + apply String.eqb_neq in Ho.
      rewrite !respond_unhandled by assumption. reflexivity.
Qed.

Lemma serve_answers (reqs : list Request) (s : Store) :
  Server.serve wetag reqs s = (List.map (answer wetag) reqs, s).
Proof.
  induction reqs as [| req rest IH]; [reflexivity |].
  cbn [serve List.map]. rewrite respond_answer, IH. reflexivity.
Qed.

Lemma run_answers (s s' : Store) batch log :
  Server.run wetag s batch log s' ->
  s' = s
  /\ List.map fst log ≡ₚ batch
  /\ Forall (fun entry => snd entry = answer wetag (fst entry)) log.
Proof.
  induction 1 as [s | s before req after res s' log s'' Hres Hrun IH].
  - repeat split; constructor.
  - rewrite respond_answer in Hres. injection Hres as <- <-.
    destruct IH as (-> & Hperm & Hall). split; [reflexivity | split].
    + cbn [List.map fst]. rewrite Hperm. apply Permutation_middle.
    + constructor; [reflexivity | exact Hall].
Qed.

Lemma run_exists (s : Store) batch :
  exists log, Server.run wetag s batch log s.
Proof.
  induction batch as [| req rest [log Hlog]].
  - exists []. constructor.
  - exists ((req, answer wetag req) :: log).
    apply (run_turn wetag s [] req rest (answer wetag req) s log s).
    + apply respond_answer.
    + exact Hlog.
Qed.

End Stateless.

(** ** The claims of the specification *)

(** C1 (as amended).  Every GET request to /health that is not a fresh
    conditional request is answered, whatever else it carries (query
    string, other header fields) and whatever the store, with status 200,
    the exact text [{"status":"ok","svc":"user"}] and the JSON content
    type; the response is one fixed value and the store is left as it
    was. *)
Theorem get_health_ok {Store : Type} wetag (req : Request) (s : Store) :
  method req = "GET" ->
  path req = "/health" ->
  is_fresh wetag req = false ->
  exists res,
    Server.respond wetag req s = (res, s)
    /\ res = json_response wetag health_json false false
    /\ statusCode res = 200%Z
    /\ body res = Text health_json
    /\ getHeader "Content-Type" res = Some json_type.
Proof.
  intros Hm Hp Hf. eexists. split; [| split; [reflexivity |]].
  - rewrite respond_on_health, Hm, Hf; [reflexivity | |].
    + unfold on_health. rewrite Hp. reflexivity.
    + rewrite Hm. reflexivity.
  - apply (json_response_ok wetag health_json false).
Qed.

Lemma get_health_ok_witness :
  exists res,
    Server.respond Sample.etag (Sample.request "GET" "/health" (Some "x=1")
                                  {["user-agent" := "probe"]}) tt = (res, tt)
    /\ res = json_response Sample.etag health_json false false
    /\ statusCode res = 200%Z
    /\ body res = Text health_json
    /\ getHeader "Content-Type" res = Some json_type.
Proof. apply get_health_ok; vm_compute; reflexivity. Defined.

(** C1 as stated fails: a GET /health that revalidates with
    [If-None-Match: *] is answered 304 with an empty body. *)
Lemma get_health_revalidated :
  statusCode (fst (Server.respond Sample.etag (Sample.revalidating "GET" "/health") tt))
    = 304%Z
  /\ body (fst (Server.respond Sample.etag (Sample.revalidating "GET" "/health") tt))
    = Text "".
Proof. split; vm_compute; reflexivity. Qed.

(** C2 (as amended).  Every GET request to /users that is not a fresh
    conditional request is answered with status 200, the exact text
    [[{"id":1,"name":"Alice"}]] (an array of one element) and the JSON
    content type; the response is one fixed value and the store is left
    as it was. *)
Theorem get_users_ok {Store : Type} wetag (req : Request) (s : Store) :
  method req = "GET" ->
  path req = "/users" ->
  is_fresh wetag req = false ->
  exists res,
    Server.respond wetag req s = (res, s)
    /\ res = json_response wetag users_json false false
    /\ statusCode res = 200%Z
    /\ body res = Text users_json
    /\ getHeader "Content-Type" res = Some json_type.
Proof.
  intros Hm Hp Hf. eexists. split; [| split; [reflexivity |]].
  - rewrite respond_on_users, Hm, Hf; [reflexivity | |].
    + unfold on_users. rewrite Hp. reflexivity.
    + rewrite Hm. reflexivity.
  - apply (json_response_ok wetag users_json false).
Qed.

Lemma get_users_ok_witness :
  exists res,
    Server.respond Sample.etag (Sample.plain "GET" "/users") tt = (res, tt)
    /\ res = json_response Sample.etag users_json false false
    /\ statusCode res = 200%Z
    /\ body res = Text users_json
    /\ getHeader "Content-Type" res = Some json_type.
Proof. apply get_users_ok; vm_compute; reflexivity. Defined.

(** C2 as stated fails: a GET /users that revalidates with
    [If-None-Match: *] is answered 304 with an empty body. *)
Lemma get_users_revalidated :
  statusCode (fst (Server.respond Sample.etag (Sample.revalidating "GET" "/users") tt))
    = 304%Z
  /\ body (fst (Server.respond Sample.etag (Sample.revalidating "GET" "/users") tt))
    = Text "".
Proof. split; vm_compute; reflexivity. Qed.

(** C3 (as amended).  A request whose path matches neither route, or whose
    method is none of GET, HEAD and OPTIONS, is answered 404. *)
Theorem not_found {Store : Type} wetag (req : Request) (s : Store) :
  (on_health req = false /\ on_users req = false)
  \/ (get_like (method req) = false /\ method req <> "OPTIONS") ->
  exists res,
    Server.respond wetag req s = (res, s)
    /\ res = finalhandler req powered
    /\ statusCode res = 404%Z.
Proof.
  intros [[Hh Hu] | [Hm Ho]]; eexists; (split; [| split; [reflexivity |]]).
  - apply respond_unmatched; assumption.
  - unfold finalhandler. destruct (String.eqb (method req) "HEAD"); reflexivity.
  - apply respond_unhandled; assumption.
  - unfold finalhandler. destruct (String.eqb (method req) "HEAD"); reflexivity.
Qed.

Lemma not_found_witness :
  (exists res,
     Server.respond Sample.etag (Sample.plain "GET" "/nonexistent") tt = (res, tt)
     /\ res = finalhandler (Sample.plain "GET" "/nonexistent") powered
     /\ statusCode res = 404%Z)
  /\ (exists res,
     Server.respond Sample.etag (Sample.plain "DELETE" "/users") tt = (res, tt)
     /\ res = finalhandler (Sample.plain "DELETE" "/users") powered
     /\ statusCode res = 404%Z).
Proof.
  split; apply not_found.
  - left. split; vm_compute; reflexivity.
  - right. split; [vm_compute; reflexivity | discriminate].
Defined.

(** C3 as stated fails: HEAD /health and OPTIONS /users are not GET
    requests, and both are answered 200. *)
Lemma head_and_options_answered :
  statusCode (fst (Server.respond Sample.etag (Sample.plain "HEAD" "/health") tt)) = 200%Z
  /\ statusCode (fst (Server.respond Sample.etag (Sample.plain "OPTIONS" "/users") tt)) = 200%Z.
Proof. split; vm_compute; reflexivity. Qed.

(** C4 (as amended).  The argument of [listen] comes from the environment
    variable PORT: when it is absent or empty the service listens on the
    number 3000; any other configured value is the port it listens on. *)
Theorem listen_port (env : gmap string string) :
  (env !! "PORT" = None \/ env !! "PORT" = Some "" ->
   listen_arg (Server.main env) = Js.Number 3000)
  /\ (forall v, env !! "PORT" = Some v -> v <> "" ->
      listen_arg (Server.main env) = Js.Str v).
Proof.
  unfold Server.main, Server.port, env_get. cbn [listen_arg]. split.
  - intros [-> | ->]; reflexivity.
  - intros v -> Hv. apply String.eqb_neq in Hv.
    unfold Js.or. cbn [Js.truthy]. rewrite Hv. reflexivity.
Qed.

Lemma listen_port_witness :
  listen_arg (Server.main ∅) = Js.Number 3000
  /\ listen_arg (Server.main {["PORT" := "8080"]}) = Js.Str "8080".
Proof.
  split.
  - apply (proj1 (listen_port ∅)). left. reflexivity.
  - apply (proj2 (listen_port {["PORT" := "8080"]}) "8080"); [reflexivity | discriminate].
Defined.

(** C4 as stated fails: an invalid value is not replaced by 3000. *)
Lemma invalid_port_kept :
  listen_arg (Server.main {["PORT" := "abc"]}) = Js.Str "abc"
  /\ listen_arg (Server.main {["PORT" := "abc"]}) <> Js.Number 3000.
Proof. split; [reflexivity | discriminate]. Qed.

(** C10.  PORT is used as the string it is: the argument of [listen] is
    the number 3000 exactly when PORT is absent or empty, and otherwise
    the configured string itself, unparsed; so it is for ["abc"]. *)
Theorem port_verbatim (env : gmap string string) :
  listen_arg (Server.main env)
  = match env !! "PORT" with
    | None => Js.Number 3000
    | Some v => if String.eqb v "" then Js.Number 3000 else Js.Str v
    end
  /\ (listen_arg (Server.main env) = Js.Number 3000
      <-> env !! "PORT" = None \/ env !! "PORT" = Some "")
  /\ listen_arg (Server.main (<["PORT" := "abc"]> env)) = Js.Str "abc".
Proof.
  unfold Server.main, Server.port, env_get, Js.or. cbn [listen_arg].
  split; [| split].
  - destruct (env !! "PORT") as [v |]; [| reflexivity].
    cbn [Js.truthy]. destruct (String.eqb v ""); reflexivity.
  - destruct (env !! "PORT") as [v |]; cbn [Js.truthy].
    + destruct (String.eqb v "") eqn:Hv; cbn [negb].
      * apply String.eqb_eq in Hv as ->. split; [right |]; reflexivity.
      * apply String.eqb_neq in Hv. split; [discriminate |].
        intros [H | H]; [discriminate | congruence].
    + split; [left |]; reflexivity.
  - rewrite lookup_insert_eq. reflexivity.
Qed.

(** C6 (as amended).  Two GET requests to the same route that agree on
    cache freshness get the same response, whatever the rest of their
    content and whatever requests each instance has served before; serving
    changes no state. *)
Theorem same_route_same_response {Store : Type} wetag
    (before1 before2 : list Request) (s1 s2 : Store) (req1 req2 : Request) :
  method req1 = "GET" -> method req2 = "GET" ->
  (on_health req1 && on_health req2) || (on_users req1 && on_users req2) = true ->
  is_fresh wetag req1 = is_fresh wetag req2 ->
  snd (Server.serve wetag before1 s1) = s1
  /\ snd (Server.serve wetag before2 s2) = s2
  /\ fst (Server.respond wetag req1 (snd (Server.serve wetag before1 s1)))
     = fst (Server.respond wetag req2 (snd (Server.serve wetag before2 s2)))
  /\ snd (Server.respond wetag req1 (snd (Server.serve wetag before1 s1))) = s1.
Proof.
  intros Hm1 Hm2 Hroute Hf. rewrite !serve_answers. cbn [snd].
  split; [reflexivity | split; [reflexivity | split]].
  2:{ rewrite respond_answer. reflexivity. }
  apply orb_true_iff in Hroute as [H | H]; apply andb_true_iff in H as [H1 H2].
  - rewrite !respond_on_health by (try assumption; rewrite ?Hm1, ?Hm2; reflexivity).
    rewrite Hm1, Hm2, Hf. reflexivity.
  - rewrite !respond_on_users by (try assumption; rewrite ?Hm1, ?Hm2; reflexivity).
    rewrite Hm1, Hm2, Hf. reflexivity.
Qed.

Lemma same_route_same_response_witness :
  fst (Server.respond Sample.etag (Sample.plain "GET" "/users")
         (snd (Server.serve Sample.etag [Sample.plain "GET" "/health"] tt)))
  = fst (Server.respond Sample.etag
           (Sample.request "GET" "/Users/" (Some "page=2") {["accept" := "*/*"]})
           (snd (Server.serve Sample.etag
                   [Sample.plain "DELETE" "/users"; Sample.plain "GET" "/users"] tt))).
Proof.
  apply (same_route_same_response Sample.etag
           [Sample.plain "GET" "/health"]
           [Sample.plain "DELETE" "/users"; Sample.plain "GET" "/users"] tt tt
           (Sample.plain "GET" "/users")
           (Sample.request "GET" "/Users/" (Some "page=2") {["accept" := "*/*"]}));
    vm_compute; reflexivity.
Defined.

(** C6 as stated fails: two GET requests to /health that differ in one
    header field get different statuses and different bodies. *)
Lemma same_route_different_response :
  statusCode (fst (Server.respond Sample.etag (Sample.plain "GET" "/health") tt)) = 200%Z
  /\ statusCode (fst (Server.respond Sample.etag (Sample.revalidating "GET" "/health") tt))
     = 304%Z
  /\ body (fst (Server.respond Sample.etag (Sample.plain "GET" "/health") tt))
     <> body (fst (Server.respond Sample.etag (Sample.revalidating "GET" "/health") tt)).
Proof. split; [| split]; vm_compute; [reflexivity | reflexivity | discriminate]. Qed.

(** C7 (as amended).  Requests in flight together are served independently
    of one another: whatever the batch and whatever order the event loop
    picks, every request is answered, with exactly the answer an instance
    that has served nothing gives to it alone, and the store is never
    changed; so every GET /users in the batch that is not a fresh
    conditional request receives status 200 and the same users text. *)
Theorem concurrent_requests_independent {Store : Type} wetag :
  (forall (s : Store) batch, exists log, Server.run wetag s batch log s)
  /\ (forall (s s' : Store) batch log,
        Server.run wetag s batch log s' ->
        s' = s
        /\ List.map fst log ≡ₚ batch
        /\ Forall (fun entry =>
                     snd entry = answer wetag (fst entry)
                     /\ (method (fst entry) = "GET" ->
                         on_users (fst entry) = true ->
                         is_fresh wetag (fst entry) = false ->
                         statusCode (snd entry) = 200%Z
                         /\ body (snd entry) = Text users_json)) log).
Proof.
  split; [apply run_exists |].
  intros s s' batch log Hrun.
  destruct (run_answers wetag s s' batch log Hrun) as (Hs & Hperm & Hall).
  split; [exact Hs | split; [exact Hperm |]].
  eapply Forall_impl; [exact Hall |].
  intros [req res] Hres. cbn [fst snd] in *. split; [exact Hres |].
  intros Hm Hu Hf. subst res. unfold answer.
  rewrite respond_on_users by (try assumption; rewrite Hm; reflexivity).
  rewrite Hm, Hf. cbn [fst]. split; reflexivity.
Qed.

Lemma concurrent_requests_independent_witness :
  Forall (fun entry =>
            snd entry = answer Sample.etag (fst entry)
            /\ (method (fst entry) = "GET" ->
                on_users (fst entry) = true ->
                is_fresh Sample.etag (fst entry) = false ->
                statusCode (snd entry) = 200%Z
                /\ body (snd entry) = Text users_json))
    [(Sample.plain "GET" "/users", answer Sample.etag (Sample.plain "GET" "/users"));
     (Sample.plain "GET" "/health", answer Sample.etag (Sample.plain "GET" "/health"));
     (Sample.request "GET" "/users" (Some "n=2") ∅,
      answer Sample.etag (Sample.request "GET" "/users" (Some "n=2") ∅))].
Proof.
  apply (proj2 (concurrent_requests_independent (Store := unit) Sample.etag) tt tt
           [Sample.plain "GET" "/health";
            Sample.request "GET" "/users" (Some "n=2") ∅;
            Sample.plain "GET" "/users"]).
  apply (run_turn Sample.etag tt
           [Sample.plain "GET" "/health"; Sample.request "GET" "/users" (Some "n=2") ∅]
           (Sample.plain "GET" "/users") [] _ tt _ tt); [reflexivity |].
  apply (run_turn Sample.etag tt [] (Sample.plain "GET" "/health")
           [Sample.request "GET" "/users" (Some "n=2") ∅] _ tt _ tt); [reflexivity |].
  apply (run_turn Sample.etag tt [] (Sample.request "GET" "/users" (Some "n=2") ∅)
           [] _ tt _ tt); [reflexivity |].
  apply run_idle.
Defined.

(** The example of the specification: a hundred plain GET /users in
    flight together, answered in any order, all get the users text. *)
Lemma hundred_simultaneous_users {Store : Type} wetag (s s' : Store) log :
  Server.run wetag s (repeat (Sample.plain "GET" "/users") 100) log s' ->
  List.length log = 100%nat
  /\ Forall (fun entry => statusCode (snd entry) = 200%Z
                          /\ body (snd entry) = Text users_json) log.
Proof.
  intros Hrun.
  destruct (run_answers wetag s s' _ log Hrun) as (_ & Hperm & Hall). split.
  - rewrite <- (length_map fst), Hperm. apply repeat_length.
  - apply Forall_forall. intros [req res] Hin.
    assert (Hreq : req = Sample.plain "GET" "/users").
    { apply (repeat_spec 100 (Sample.plain "GET" "/users")).
      apply list_elem_of_In. rewrite <- Hperm.
      apply (list_elem_of_fmap_2 fst _ _ Hin). }
    rewrite Forall_forall in Hall. specialize (Hall _ Hin). cbn [fst snd] in *.
    subst req res. unfold answer.
    rewrite respond_on_users by reflexivity.
    rewrite unconditional_not_fresh by reflexivity. split; reflexivity.
Qed.

(** C7 as stated fails: of two GET /users requests in flight together, the
    one that revalidates receives an empty body with status 304. *)
Lemma concurrent_bodies_differ :
  Server.run Sample.etag tt
    [Sample.plain "GET" "/users"; Sample.revalidating "GET" "/users"]
    [(Sample.revalidating "GET" "/users", answer Sample.etag (Sample.revalidating "GET" "/users"));
     (Sample.plain "GET" "/users", answer Sample.etag (Sample.plain "GET" "/users"))]
    tt
  /\ body (answer Sample.etag (Sample.plain "GET" "/users")) = Text users_json
  /\ body (answer Sample.etag (Sample.revalidating "GET" "/users")) = Text ""
  /\ statusCode (answer Sample.etag (Sample.revalidating "GET" "/users")) = 304%Z.
Proof.
  split; [| split; [| split]; vm_compute; reflexivity].
  apply (run_turn Sample.etag tt [Sample.plain "GET" "/users"]
           (Sample.revalidating "GET" "/users") [] _ tt _ tt); [reflexivity |].
  apply (run_turn Sample.etag tt [] (Sample.plain "GET" "/users") [] _ tt _ tt);
    [reflexivity |].
  apply run_idle.
Qed.

(** C8 (as amended).  A route registered with [app.get] also answers HEAD:
    a HEAD request to /health or /users is never answered 404; it gets the
    response of the same request made with GET, with the body left out,
    which is status 200 unless the request is a fresh conditional one. *)
Theorem head_answered {Store : Type} wetag (req : Request) (s : Store) :
  method req = "HEAD" ->
  on_health req || on_users req = true ->
  exists res,
    Server.respond wetag req s = (res, s)
    /\ res = end_ NoBody
               (answer wetag {| method := "GET"; path := path req;
                                query := query req; headers := headers req |})
    /\ body res = NoBody
    /\ statusCode res <> 404%Z
    /\ (is_fresh wetag req = false -> statusCode res = 200%Z).
Proof.
  intros Hm Hp.
  set (get := {| method := "GET"; path := path req;
                 query := query req; headers := headers req |}).
  assert (Hf : is_fresh wetag get = is_fresh wetag req).
  { unfold is_fresh, not_modified, on_health, on_users. cbn [method path headers].
    rewrite Hm. reflexivity. }
  unfold answer. destruct (on_health req) eqn:Hh.
  - rewrite (respond_on_health wetag req s), (respond_on_health wetag get tt), Hm, Hf
      by (try assumption; rewrite ?Hm; reflexivity).
    eexists. split; [reflexivity |].
    destruct (is_fresh wetag req); repeat split; try reflexivity; discriminate.
  - cbn [orb] in Hp.
    rewrite (respond_on_users wetag req s), (respond_on_users wetag get tt), Hm, Hf
      by (try assumption; rewrite ?Hm; reflexivity).
    eexists. split; [reflexivity |].
    destruct (is_fresh wetag req); repeat split; try reflexivity; discriminate.
Qed.

Lemma head_answered_witness :
  exists res,
    Server.respond Sample.etag (Sample.plain "HEAD" "/users") tt = (res, tt)
    /\ res = end_ NoBody (answer Sample.etag (Sample.plain "GET" "/users"))
    /\ body res = NoBody
    /\ statusCode res <> 404%Z
    /\ (is_fresh Sample.etag (Sample.plain "HEAD" "/users") = false ->
        statusCode res = 200%Z).
Proof.
  apply (head_answered Sample.etag (Sample.plain "HEAD" "/users") tt); reflexivity.
Defined.

(** C8 as stated fails: a HEAD /health that revalidates with
    [If-None-Match: *] is answered 304, not 200. *)
Lemma head_revalidated :
  statusCode (fst (Server.respond Sample.etag (Sample.revalidating "HEAD" "/health") tt))
  = 304%Z.
Proof. vm_compute. reflexivity. Qed.

(** C9 (as amended).  Matching looks at the path alone, without regard to
    letter case or one trailing slash: a GET whose path is /health or
    /users up to these, with any query string, gets exactly the response
    of the plain GET to that route carrying the same header fields, which
    is status 200 with the fixed text of the route unless the request is a
    fresh conditional one. *)
Theorem route_match_lenient {Store : Type} wetag (req : Request) (s : Store)
    (route : string) :
  method req = "GET" ->
  route = "/health" \/ route = "/users" ->
  Js.toLowerCase (path req) = route \/ Js.toLowerCase (path req) = route ++ "/" ->
  exists res,
    Server.respond wetag req s = (res, s)
    /\ res = answer wetag {| method := "GET"; path := route;
                             query := None; headers := headers req |}
    /\ (is_fresh wetag req = false ->
        statusCode res = 200%Z
        /\ body res = Text (if String.eqb route "/health" then health_json else users_json)).
Proof.
  intros Hm Hroute Hpath.
  set (plain := {| method := "GET"; path := route; query := None; headers := headers req |}).
  assert (Hon : on_health req = String.eqb route "/health"
                /\ on_users req = String.eqb route "/users"
                /\ on_health plain = String.eqb route "/health"
                /\ on_users plain = String.eqb route "/users").
  { unfold on_health, on_users. rewrite !matchLayer_literal. cbn [path plain].
    destruct Hroute as [-> | ->], Hpath as [-> | ->]; repeat split; reflexivity. }
  destruct Hon as (Hh & Hu & Hh' & Hu').
  assert (Hf : is_fresh wetag plain = is_fresh wetag req).
  { unfold is_fresh, not_modified. rewrite Hh, Hu, Hh', Hu'. cbn [method headers plain].
    rewrite Hm. reflexivity. }
  unfold answer. destruct Hroute as [-> | ->].
  - rewrite (respond_on_health wetag req s), (respond_on_health wetag plain tt), Hm, Hf
      by (try assumption; rewrite ?Hm; reflexivity).
    eexists. split; [reflexivity | split; [reflexivity |]].
    intros ->. split; reflexivity.
  - rewrite (respond_on_users wetag req s), (respond_on_users wetag plain tt), Hm, Hf
      by (try assumption; rewrite ?Hm; reflexivity).
    eexists. split; [reflexivity | split; [reflexivity |]].
    intros ->. split; reflexivity.
Qed.

Lemma route_match_lenient_witness :
  exists res,
    Server.respond Sample.etag (Sample.request "GET" "/HEALTH/" (Some "x=1") ∅) tt
    = (res, tt)
    /\ res = answer Sample.etag (Sample.plain "GET" "/health")
    /\ (is_fresh Sample.etag (Sample.request "GET" "/HEALTH/" (Some "x=1") ∅) = false ->
        statusCode res = 200%Z /\ body res = Text health_json).
Proof.
  apply (route_match_lenient Sample.etag
           (Sample.request "GET" "/HEALTH/" (Some "x=1") ∅) tt "/health");
    [reflexivity | left; reflexivity | right; reflexivity].
Defined.

(** C9 as stated fails: GET /HEALTH/?x=1 with [If-None-Match: *] is
    answered 304 with an empty body. *)
Lemma lenient_match_revalidated :
  statusCode (fst (Server.respond Sample.etag
                     (Sample.request "GET" "/HEALTH/" (Some "x=1")
                        {["if-none-match" := "*"]}) tt)) = 304%Z
  /\ body (fst (Server.respond Sample.etag
                  (Sample.request "GET" "/HEALTH/" (Some "x=1")
                     {["if-none-match" := "*"]}) tt)) = Text "".
Proof. split; vm_compute; reflexivity. Qed.

(** ** Further properties of the service *)

Section Service.

Variable wetag : string -> string.

Implicit Types (req : Request) (res : Response).

Lemma getHeader_removeHeader_ne field field' res :
  Js.toLowerCase field <> Js.toLowerCase field' ->
  getHeader field' (removeHeader field res) = getHeader field' res.
Proof. intros H. unfold getHeader, removeHeader. cbn [resHeaders]. by rewrite lookup_delete_ne. Qed.

Lemma getHeader_removeHeader field res :
  getHeader field (removeHeader field res) = None.
Proof. apply lookup_delete_eq. Qed.

(** The shape of the answer, route by route. *)
Lemma answer_cases req :
  (on_health req = true /\ get_like (method req) = true
   /\ answer wetag req
      = json_response wetag health_json (String.eqb (method req) "HEAD") (is_fresh wetag req))
  \/ (on_health req = false /\ on_users req = true /\ get_like (method req) = true
      /\ answer wetag req
         = json_response wetag users_json (String.eqb (method req) "HEAD") (is_fresh wetag req))
  \/ (on_health req || on_users req = true /\ get_like (method req) = false
      /\ method req = "OPTIONS"
      /\ answer wetag req = sendOptionsResponse wetag req ["GET"; "HEAD"] powered)
  \/ ((on_health req || on_users req = false
       \/ (get_like (method req) = false /\ method req <> "OPTIONS"))
      /\ answer wetag req = finalhandler req powered).
Proof.
  unfold answer.
  destruct (get_like (method req)) eqn:Hm.
  - destruct (on_health req) eqn:Hh.
    + left. rewrite respond_on_health by assumption. auto.
    + destruct (on_users req) eqn:Hu.
      * right; left. rewrite respond_on_users by assumption. auto.
      * right; right; right. rewrite respond_unmatched by assumption. auto.
  - destruct (String.eqb (method req) "OPTIONS") eqn:Ho.
    + apply String.eqb_eq in Ho.
      destruct (on_health req || on_users req) eqn:Hp.
      * right; right; left. rewrite respond_options by assumption. auto.
      * right; right; right. apply orb_false_iff in Hp as Hp'. destruct Hp' as [Hh Hu].
        rewrite respond_unmatched by assumption. auto.
    + apply String.eqb_neq in Ho.
      right; right; right. rewrite respond_unhandled by assumption. auto.
Qed.

Lemma options_response req :
  method req = "OPTIONS" ->
  statusCode (sendOptionsResponse wetag req ["GET"; "HEAD"] powered) = 200%Z
  /\ body (sendOptionsResponse wetag req ["GET"; "HEAD"] powered) = Text "GET,HEAD"
  /\ getHeader "Content-Length" (sendOptionsResponse wetag req ["GET"; "HEAD"] powered)
     = Some "8"
  /\ getHeader "X-Powered-By" (sendOptionsResponse wetag req ["GET"; "HEAD"] powered)
     = Some "Express".
Proof.
  intros Hm. unfold sendOptionsResponse, send, req_fresh. rewrite Hm.
  cbn [String.eqb Ascii.eqb Bool.eqb negb andb].
  change (present (getHeader "Content-Type" _)) with false. cbn iota.
  rewrite !getHeader_setHeader_ne by (cbn; discriminate).
  change (present (getHeader "ETag" powered)) with false. cbn [negb].
  repeat split.
Qed.

End Service.

Lemma finalhandler_status req res : statusCode (finalhandler req res) = 404%Z.
Proof. unfold finalhandler. destruct (String.eqb (method req) "HEAD"); reflexivity. Qed.

(** X1.  The status of every response, as a table: a request on one of
    the two paths with method GET or HEAD gets 200, or 304 when it is a
    fresh conditional request; OPTIONS on one of the two paths gets 200;
    everything else gets 404.  No other status is ever produced. *)
Theorem status_table {Store : Type} wetag (req : Request) (s : Store) :
  statusCode (fst (Server.respond wetag req s))
  = if (on_health req || on_users req) && get_like (method req)
    then (if is_fresh wetag req then 304%Z else 200%Z)
    else if (on_health req || on_users req) && String.eqb (method req) "OPTIONS"
         then 200%Z
         else 404%Z.
Proof.
  rewrite respond_answer. cbn [fst].
  destruct (answer_cases wetag req)
    as [(Hh & Hm & ->) | [(Hh & Hu & Hm & ->) | [(Hp & Hm & Ho & ->) | (Hc & ->)]]].
  - rewrite Hh, Hm. cbn [orb andb]. destruct (is_fresh wetag req); reflexivity.
  - rewrite Hh, Hu, Hm. cbn [orb andb]. destruct (is_fresh wetag req); reflexivity.
  - rewrite Hp, Hm, Ho. cbn [andb String.eqb]. apply (options_response wetag req Ho).
  - rewrite finalhandler_status. destruct Hc as [Hp | [Hm Ho]].
    + rewrite Hp. reflexivity.
    + apply String.eqb_neq in Ho. rewrite Hm, Ho, !andb_false_r. reflexivity.
Qed.

(** X2.  The order in which the two routes are registered does not
    matter: with lines 4 and 5 exchanged, every request gets the same
    response and leaves the same store. *)
Theorem registration_order_irrelevant {Store : Type} wetag (req : Request) (s : Store) :
  handle wetag
    (app_get "/health" (health_handler wetag)
       (app_get "/users" (users_handler wetag) express)) req s
  = Server.respond wetag req s.
Proof.
  change (handle wetag _ req s) with
    (next wetag
       [Routed {| route_path := "/users"; methods := ["get"];
                  route_stack := [("get", users_handler wetag)] |};
        Routed {| route_path := "/health"; methods := ["get"];
                  route_stack := [("get", health_handler wetag)] |}]
       [] req powered s).
  rewrite respond_unfold. cbn [next route_path].
  rewrite !handles_get_route. fold (on_health req) (on_users req).
  destruct (on_users req) eqn:Hu.
  - rewrite (on_users_not_health req Hu). cbn [negb].
    destruct (get_like (method req)) eqn:Hm.
    + cbn [negb andb]. rewrite dispatch_get_route by exact Hm. reflexivity.
    + cbn [negb andb]. destruct (String.eqb (method req) "HEAD") eqn:Hhead.
      * apply String.eqb_eq in Hhead. rewrite Hhead in Hm. discriminate.
      * reflexivity.
  - cbn [negb]. destruct (on_health req); [| reflexivity]. cbn [negb].
    destruct (get_like (method req)) eqn:Hm.
    + cbn [negb andb]. rewrite dispatch_get_route by exact Hm. reflexivity.
    + cbn [negb andb]. destruct (String.eqb (method req) "HEAD") eqn:Hhead.
      * apply String.eqb_eq in Hhead. rewrite Hhead in Hm. discriminate.
      * reflexivity.
Qed.

(** X3.  Every response, whatever the request and its status, carries the
    header [X-Powered-By: Express]. *)
Theorem powered_by_everywhere {Store : Type} wetag (req : Request) (s : Store) :
  getHeader "X-Powered-By" (fst (Server.respond wetag req s)) = Some "Express".
Proof.
  rewrite respond_answer. cbn [fst].
  destruct (answer_cases wetag req)
    as [(Hh & Hm & ->) | [(Hh & Hu & Hm & ->) | [(Hp & Hm & Ho & ->) | (Hc & ->)]]].
  - destruct (is_fresh wetag req), (String.eqb (method req) "HEAD"); reflexivity.
  - destruct (is_fresh wetag req), (String.eqb (method req) "HEAD"); reflexivity.
  - apply (options_response wetag req Ho).
  - unfold finalhandler. destruct (String.eqb (method req) "HEAD"); reflexivity.
Qed.

(** X4.  A HEAD request never gets a body, on any path: not with the 200
    or 304 of a route, and not with the 404 of the final handler. *)
Theorem head_never_body {Store : Type} wetag (req : Request) (s : Store) :
  method req = "HEAD" ->
  body (fst (Server.respond wetag req s)) = NoBody.
Proof.
  intros Hhead. rewrite respond_answer. cbn [fst].
  destruct (answer_cases wetag req)
    as [(Hh & Hm & ->) | [(Hh & Hu & Hm & ->) | [(Hp & Hm & Ho & ->) | (Hc & ->)]]].
  - rewrite Hhead. reflexivity.
  - rewrite Hhead. reflexivity.
  - congruence.
  - unfold finalhandler. rewrite Hhead. reflexivity.
Qed.

Lemma head_never_body_witness :
  body (fst (Server.respond Sample.etag (Sample.plain "HEAD" "/nonexistent") tt)) = NoBody
  /\ body (fst (Server.respond Sample.etag (Sample.revalidating "HEAD" "/users") tt))
     = NoBody.
Proof. split; apply head_never_body; reflexivity. Defined.



Lemma json_response_etag wetag text head :
  getHeader "ETag" (json_response wetag text head false) = Some (wetag text)
  /\ getHeader "ETag" (json_response wetag text head true) = Some (wetag text).
Proof.
  unfold json_response, getHeader, end_, removeHeader, status, setHeader.
  cbn [resHeaders]. 
  change (Js.toLowerCase "ETag") with "etag".
  change (Js.toLowerCase "Content-Length") with "content-length".
  change (Js.toLowerCase "Content-Type") with "content-type".
  change (Js.toLowerCase "Transfer-Encoding") with "transfer-encoding".
  split.
  - apply lookup_insert_eq.
  - rewrite !lookup_delete_ne by discriminate. apply lookup_insert_eq.
Qed.

(** The validator of a route's response revalidates it: [fresh] accepts
    an [If-None-Match] that is the ETag itself. *)
Lemma fresh_own_etag (h : gmap string string) (e : string) :
  h !! "if-none-match" = Some e ->
  h !! "if-modified-since" = None ->
  h !! "cache-control" = None ->
  e <> "" ->
  parseTokenList e = [e] ->
  fresh h (Some e) = true.
Proof.
  intros Hn Hm Hc He Htok. apply String.eqb_neq in He.
  unfold fresh. rewrite Hn, Hm, Hc. cbn [present from_option id]. rewrite He, Htok.
  cbn [negb andb existsb]. rewrite String.eqb_refl. cbn [orb negb].
  rewrite andb_false_r. reflexivity.
Qed.

(** X6.  Revalidation round trip: the ETag the service sends with the 200
    of a route, sent back as [If-None-Match] in a later GET to the same
    route (with no [If-Modified-Since] and no [Cache-Control]), yields 304
    with an empty body and the same ETag.  The ETag must be one token:
    not empty, and free of commas and of blanks at its ends. *)
Theorem etag_round_trip {Store : Type} wetag (first again : Request) (s : Store)
    (e : string) :
  method first = "GET" -> method again = "GET" ->
  (on_health first && on_health again) || (on_users first && on_users again) = true ->
  is_fresh wetag first = false ->
  getHeader "ETag" (fst (Server.respond wetag first s)) = Some e ->
  e <> "" -> parseTokenList e = [e] ->
  headers again !! "if-none-match" = Some e ->
  headers again !! "if-modified-since" = None ->
  headers again !! "cache-control" = None ->
  statusCode (fst (Server.respond wetag again s)) = 304%Z
  /\ body (fst (Server.respond wetag again s)) = Text ""
  /\ getHeader "ETag" (fst (Server.respond wetag again s)) = Some e.
Proof.
  intros Hm1 Hm2 Hroute Hf1 He Hne Htok Hn Hms Hcc.
  apply orb_true_iff in Hroute as [H | H]; apply andb_true_iff in H as [H1 H2].
  - rewrite respond_on_health in He by (try assumption; rewrite Hm1; reflexivity).
    rewrite Hf1 in He. cbn [fst] in He.
    rewrite (proj1 (json_response_etag wetag health_json _)) in He.
    injection He as He.
    assert (Hf2 : is_fresh wetag again = true).
    { unfold is_fresh, not_modified. rewrite H2, Hm2, He. cbn [String.eqb Ascii.eqb Bool.eqb orb andb].
      apply fresh_own_etag; assumption. }
    rewrite respond_on_health, Hm2, Hf2 by (try assumption; rewrite Hm2; reflexivity).
    cbn [fst]. rewrite (proj2 (json_response_etag wetag health_json _)), He.
    repeat split.
  - rewrite respond_on_users in He by (try assumption; rewrite Hm1; reflexivity).
    rewrite Hf1 in He. cbn [fst] in He.
    rewrite (proj1 (json_response_etag wetag users_json _)) in He.
    injection He as He.
    assert (Hf2 : is_fresh wetag again = true).
    { unfold is_fresh, not_modified.
      rewrite H2, (on_users_not_health again H2), Hm2, He.
      cbn [String.eqb Ascii.eqb Bool.eqb orb andb].
      apply fresh_own_etag; assumption. }
    rewrite respond_on_users, Hm2, Hf2 by (try assumption; rewrite Hm2; reflexivity).
    cbn [fst]. rewrite (proj2 (json_response_etag wetag users_json _)), He.
    repeat split.
Qed.

Lemma etag_round_trip_witness :
  statusCode (fst (Server.respond Sample.etag
                     (Sample.request "GET" "/users" None
                        {["if-none-match" := Sample.etag users_json]}) tt)) = 304%Z
  /\ body (fst (Server.respond Sample.etag
                  (Sample.request "GET" "/users" None
                     {["if-none-match" := Sample.etag users_json]}) tt)) = Text ""
  /\ getHeader "ETag"
       (fst (Server.respond Sample.etag
               (Sample.request "GET" "/users" None
                  {["if-none-match" := Sample.etag users_json]}) tt))
     = Some (Sample.etag users_json).
Proof.
  apply (etag_round_trip Sample.etag (Sample.plain "GET" "/users")
           (Sample.request "GET" "/users" None
              {["if-none-match" := Sample.etag users_json]}) tt
           (Sample.etag users_json));
    try (vm_compute; reflexivity).
  vm_compute. discriminate.
Defined.



(** X8.  Validation by date is never honoured: the service sets no
    [Last-Modified], so a GET on a route that carries no [If-None-Match]
    gets 200 with the text of the route, whatever its
    [If-Modified-Since]. *)
Theorem modified_since_ignored {Store : Type} wetag (req : Request) (s : Store) :
  method req = "GET" ->
  on_health req || on_users req = true ->
  headers req !! "if-none-match" = None ->
  statusCode (fst (Server.respond wetag req s)) = 200%Z
  /\ body (fst (Server.respond wetag req s))
     = Text (if on_health req then health_json else users_json).
Proof.
  intros Hm Hp Hn.
  assert (Hf : is_fresh wetag req = false).
  { unfold is_fresh, not_modified, fresh. rewrite Hn. cbn [present negb andb].
    destruct (present (headers req !! "if-modified-since")); cbn [negb];
      [destruct (match headers req !! "cache-control" with Some _ => _ | None => _ end) |];
      rewrite andb_false_r; destruct (on_health req), (on_users req); reflexivity. }
  destruct (on_health req) eqn:Hh.
  - rewrite respond_on_health, Hm, Hf by (try assumption; rewrite Hm; reflexivity).
    split; reflexivity.
  - cbn [orb] in Hp.
    rewrite respond_on_users, Hm, Hf by (try assumption; rewrite Hm; reflexivity).
    split; reflexivity.
Qed.

Lemma modified_since_ignored_witness :
  statusCode (fst (Server.respond Sample.etag
                     (Sample.request "GET" "/users" None
                        {["if-modified-since" := "Wed, 21 Oct 2015 07:28:00 GMT"]}) tt))
  = 200%Z
  /\ body (fst (Server.respond Sample.etag
                  (Sample.request "GET" "/users" None
                     {["if-modified-since" := "Wed, 21 Oct 2015 07:28:00 GMT"]}) tt))
     = Text users_json.
Proof.
  apply (modified_since_ignored Sample.etag
           (Sample.request "GET" "/users" None
              {["if-modified-since" := "Wed, 21 Oct 2015 07:28:00 GMT"]}) tt);
    vm_compute; reflexivity.
Defined.

Lemma append_cancel (p a b : string) : p ++ a = p ++ b -> a = b.
Proof.
  induction p as [| c p IH]; cbn; [trivial |]. intros [= H]. apply IH, H.
Qed.

(** X9.  The startup line is [user-service listening] followed by the
    text of the [listen] argument: PORT itself, or 3000 when PORT is absent
    or empty.  It therefore reads [user-service listening 3000] exactly
    when PORT is absent, empty or the string 3000. *)
Theorem listening_line (env : gmap string string) :
  listening_log (Server.main env)
  = "user-service listening "
    ++ match env !! "PORT" with
       | None => "3000"
       | Some v => if String.eqb v "" then "3000" else v
       end
  /\ (listening_log (Server.main env) = "user-service listening 3000"
      <-> env !! "PORT" = None \/ env !! "PORT" = Some "" \/ env !! "PORT" = Some "3000").
Proof.
  assert (Hline : listening_log (Server.main env)
                  = "user-service listening "
                    ++ match env !! "PORT" with
                       | None => "3000"
                       | Some v => if String.eqb v "" then "3000" else v
                       end).
  { unfold Server.main, Server.port, env_get, Js.or. cbn [listening_log].
    destruct (env !! "PORT") as [v |]; [| reflexivity].
    cbn [Js.truthy]. destruct (String.eqb v ""); reflexivity. }
  split; [exact Hline |]. rewrite Hline.
  change "user-service listening 3000" with ("user-service listening " ++ "3000").
  destruct (env !! "PORT") as [v |].
  - destruct (String.eqb v "") eqn:Hv.
    + apply String.eqb_eq in Hv as ->. split; auto.
    + apply String.eqb_neq in Hv. split.
      * intros H. apply append_cancel in H. subst v. auto.
      * intros [H | [H | H]]; [discriminate | congruence | congruence].
  - split; auto.
Qed.
